(** * NMKeepAlive (src/nm-keep-alive.c): a shallow embedding

    The private record of an [NMKeepAlive] object is modelled field by
    field.  The rest of the world the object talks to is explicit:
    - the NM_SETTINGS_CONNECTION_INT_FLAGS_VISIBLE flag of every settings
      connection (a connection is named by its pointer, a [nat]);
    - a supply of fresh handles (GCancellable objects, D-Bus signal
      subscription ids);
    - a log of the externally visible effects: property notifications,
      signal (dis)connections, D-Bus calls, cancellations, subscriptions.

    The C functions become computations in a small state-and-log monad. *)

From Stdlib Require Import Bool String List Arith ZArith Lia.
Import ListNotations.

Module KeepAlive.

(** ** Data *)

Record NMKeepAlivePrivate := mkPriv {
  connection : option nat;                     (* NMSettingsConnection * *)
  dbus_connection : option nat;                (* GDBusConnection * *)
  dbus_client : option string;                 (* char * *)
  dbus_client_confirm_cancellable : option nat;(* GCancellable * *)
  subscription_id : nat;                       (* guint *)
  floating : bool;
  forced : bool;
  alive : bool;
  dbus_client_confirmed : bool
}.

Record World := mkWorld {
  conn_visible : nat -> bool;   (* VISIBLE flag of each settings connection *)
  next_handle : nat             (* next fresh cancellable / subscription id *)
}.

Record Sys := mkSys { priv : NMKeepAlivePrivate; world : World }.

(** Outcome of the GetNameOwner D-Bus call, as seen by [get_name_owner_cb]. *)
Inductive call_result :=
| Res_cancelled                      (* G_IO_ERROR_CANCELLED *)
| Res_error                          (* any other GError *)
| Res_ok (name_owner : string).      (* reply "(s)" *)

Inductive event :=
| Ev_notify_alive (v : bool)                     (* _notify (self, PROP_ALIVE) *)
| Ev_signal_connect (c : nat)                    (* flags-changed handler on c *)
| Ev_signal_disconnect (c : nat)
| Ev_get_name_owner (bus : option nat) (client : string) (cancellable : nat)
| Ev_cancel (cancellable : nat)                  (* g_cancellable_cancel *)
| Ev_subscribe (bus : nat) (client : string) (id : nat)
| Ev_unsubscribe (bus : nat) (id : nat).

(** Field updates of the private record. *)
Definition with_connection (x : option nat) (p : NMKeepAlivePrivate) :=
  mkPriv x (dbus_connection p) (dbus_client p) (dbus_client_confirm_cancellable p)
    (subscription_id p) (floating p) (forced p) (alive p) (dbus_client_confirmed p).
Definition with_dbus_connection (x : option nat) (p : NMKeepAlivePrivate) :=
  mkPriv (connection p) x (dbus_client p) (dbus_client_confirm_cancellable p)
    (subscription_id p) (floating p) (forced p) (alive p) (dbus_client_confirmed p).
Definition with_dbus_client (x : option string) (p : NMKeepAlivePrivate) :=
  mkPriv (connection p) (dbus_connection p) x (dbus_client_confirm_cancellable p)
    (subscription_id p) (floating p) (forced p) (alive p) (dbus_client_confirmed p).
Definition with_cancellable (x : option nat) (p : NMKeepAlivePrivate) :=
  mkPriv (connection p) (dbus_connection p) (dbus_client p) x
    (subscription_id p) (floating p) (forced p) (alive p) (dbus_client_confirmed p).
Definition with_subscription_id (x : nat) (p : NMKeepAlivePrivate) :=
  mkPriv (connection p) (dbus_connection p) (dbus_client p) (dbus_client_confirm_cancellable p)
    x (floating p) (forced p) (alive p) (dbus_client_confirmed p).
Definition with_floating (x : bool) (p : NMKeepAlivePrivate) :=
  mkPriv (connection p) (dbus_connection p) (dbus_client p) (dbus_client_confirm_cancellable p)
    (subscription_id p) x (forced p) (alive p) (dbus_client_confirmed p).
Definition with_forced (x : bool) (p : NMKeepAlivePrivate) :=
  mkPriv (connection p) (dbus_connection p) (dbus_client p) (dbus_client_confirm_cancellable p)
    (subscription_id p) (floating p) x (alive p) (dbus_client_confirmed p).
Definition with_alive (x : bool) (p : NMKeepAlivePrivate) :=
  mkPriv (connection p) (dbus_connection p) (dbus_client p) (dbus_client_confirm_cancellable p)
    (subscription_id p) (floating p) (forced p) x (dbus_client_confirmed p).
Definition with_confirmed (x : bool) (p : NMKeepAlivePrivate) :=
  mkPriv (connection p) (dbus_connection p) (dbus_client p) (dbus_client_confirm_cancellable p)
    (subscription_id p) (floating p) (forced p) (alive p) x.

(** ** The state-and-log monad *)

Definition M (A : Type) := Sys -> A * Sys * list event.

Definition ret {A} (a : A) : M A := fun s => (a, s, []).
Definition bind {A B} (m : M A) (k : A -> M B) : M B :=
  fun s => let '(a, s1, l1) := m s in
           let '(b, s2, l2) := k a s1 in (b, s2, l1 ++ l2).

Notation "x <- m ;; k" := (bind m (fun x => k))
  (at level 61, m at next level, right associativity).
Notation "m ;;; k" := (bind m (fun _ => k))
  (at level 61, right associativity).

Definition get_priv : M NMKeepAlivePrivate := fun s => (priv s, s, []).
Definition modify_priv (f : NMKeepAlivePrivate -> NMKeepAlivePrivate) : M unit :=
  fun s => (tt, mkSys (f (priv s)) (world s), []).
Definition emit (e : event) : M unit := fun s => (tt, s, [e]).
Definition fresh_handle : M nat :=
  fun s => (next_handle (world s),
            mkSys (priv s) (mkWorld (conn_visible (world s)) (S (next_handle (world s)))),
            []).

(** [NM_FLAGS_HAS (nm_settings_connection_get_flags (c), ..._VISIBLE)] *)
Definition connection_is_visible (c : nat) : M bool :=
  fun s => (conn_visible (world s) c, s, []).

Definition g_cancellable_new : M nat := fresh_handle.

Definition g_dbus_connection_signal_subscribe (bus : nat) (client : string) : M nat :=
  id <- fresh_handle ;; emit (Ev_subscribe bus client id) ;;; ret id.

(** [nm_streq (name_owner, priv->dbus_client)]; a NULL [dbus_client]
    never equals a string. *)
Definition nm_streq (a : string) (b : option string) : bool :=
  match b with Some b => String.eqb a b | None => false end.

Definition option_nat_eqb (a b : option nat) : bool :=
  match a, b with
  | Some x, Some y => Nat.eqb x y
  | None, None => true
  | _, _ => false
  end.

(** ** The functions of nm-keep-alive.c *)

(** _is_alive_dbus_client *)
Definition _is_alive_dbus_client : M bool :=
  p <- get_priv ;;
  match dbus_client p with
  | None => ret false
  | Some client =>
      (if dbus_client_confirmed p then ret tt
       else
         modify_priv (with_confirmed true) ;;;
         h <- g_cancellable_new ;;
         modify_priv (with_cancellable (Some h)) ;;;
         emit (Ev_get_name_owner (dbus_connection p) client h)) ;;;
      ret true
  end.

(** _is_alive *)
Definition _is_alive : M bool :=
  p <- get_priv ;;
  if floating p || forced p then ret true
  else
    vis <- (match connection p with
            | Some c => connection_is_visible c
            | None => ret false
            end) ;;
    if vis then ret true
    else
      b <- _is_alive_dbus_client ;;
      if b then ret true else ret false.

(** _notify_alive *)
Definition _notify_alive : M unit :=
  v <- _is_alive ;;
  p <- get_priv ;;
  if Bool.eqb (alive p) v then ret tt
  else
    modify_priv (with_alive (negb (alive p))) ;;;
    emit (Ev_notify_alive (negb (alive p))).

(** nm_keep_alive_is_alive *)
Definition nm_keep_alive_is_alive : M bool :=
  p <- get_priv ;; ret (alive p).

(** nm_keep_alive_sink *)
Definition nm_keep_alive_sink : M unit :=
  p <- get_priv ;;
  if floating p then modify_priv (with_floating false) ;;; _notify_alive
  else ret tt.

(** nm_keep_alive_set_forced *)
Definition nm_keep_alive_set_forced (forced_ : bool) : M unit :=
  p <- get_priv ;;
  if negb (Bool.eqb (forced p) forced_) then
    modify_priv (with_forced forced_) ;;; _notify_alive
  else ret tt.

(** connection_flags_changed *)
Definition connection_flags_changed : M unit := _notify_alive.

(** Lines 159-172 of _set_settings_connection_watch_visible: disconnect
    from the old connection and connect to the new one. *)
Definition swap_settings_connection (connection_ : option nat) : M unit :=
  p <- get_priv ;;
  (match connection p with
   | Some old => emit (Ev_signal_disconnect old) ;;; modify_priv (with_connection None)
   | None => ret tt
   end) ;;;
  (match connection_ with
   | Some c => modify_priv (with_connection (Some c)) ;;; emit (Ev_signal_connect c)
   | None => ret tt
   end).

(** _set_settings_connection_watch_visible *)
Definition _set_settings_connection_watch_visible (connection_ : option nat)
    (emit_signal : bool) : M unit :=
  p <- get_priv ;;
  if option_nat_eqb (connection p) connection_ then ret tt
  else
    swap_settings_connection connection_ ;;;
    (if emit_signal then _notify_alive else ret tt).

(** nm_keep_alive_set_settings_connection_watch_visible *)
Definition nm_keep_alive_set_settings_connection_watch_visible (connection_ : option nat) : M unit :=
  _set_settings_connection_watch_visible connection_ true.

(** nm_clear_g_cancellable (&priv->dbus_client_confirm_cancellable) *)
Definition clear_confirm_cancellable : M unit :=
  p <- get_priv ;;
  match dbus_client_confirm_cancellable p with
  | Some h => modify_priv (with_cancellable None) ;;; emit (Ev_cancel h)
  | None => ret tt
  end.

(** cleanup_dbus_watch *)
Definition cleanup_dbus_watch : M unit :=
  p <- get_priv ;;
  match dbus_client p with
  | None => ret tt
  | Some _ =>
      clear_confirm_cancellable ;;;
      modify_priv (with_dbus_client None) ;;;
      p <- get_priv ;;
      match dbus_connection p with
      | Some bus =>
          emit (Ev_unsubscribe bus (subscription_id p)) ;;;
          modify_priv (with_dbus_connection None)
      | None => ret tt
      end
  end.

(** get_name_owner_cb *)
Definition get_name_owner_cb (res : call_result) : M unit :=
  match res with
  | Res_cancelled => ret tt
  | _ =>
      p <- get_priv ;;
      match res with
      | Res_ok name_owner =>
          if nm_streq name_owner (dbus_client p) then ret tt
          else cleanup_dbus_watch ;;; _notify_alive
      | _ => cleanup_dbus_watch ;;; _notify_alive
      end
  end.

(** name_owner_changed_cb; [new_owner] is the third string of the signal. *)
Definition name_owner_changed_cb (new_owner : string) : M unit :=
  if negb (String.eqb new_owner "") then ret tt
  else cleanup_dbus_watch ;;; _notify_alive.

(** Lines 301-319 of nm_keep_alive_set_dbus_client_watch: tear down the old
    watch and arm the new one. *)
Definition register_dbus_client_watch (bus : nat) (client_address : option string) : M unit :=
  cleanup_dbus_watch ;;;
  match client_address with
  | Some a =>
      modify_priv (fun p => with_dbus_connection (Some bus)
                              (with_confirmed false (with_dbus_client (Some a) p))) ;;;
      id <- g_dbus_connection_signal_subscribe bus a ;;
      modify_priv (with_subscription_id id)
  | None => ret tt
  end.

(** nm_keep_alive_set_dbus_client_watch *)
Definition nm_keep_alive_set_dbus_client_watch (bus : nat) (client_address : option string) : M unit :=
  register_dbus_client_watch bus client_address ;;; _notify_alive.

(** nm_keep_alive_new: [g_object_new] zero-fills the private record. *)
Definition nm_keep_alive_new (floating_ : bool) : NMKeepAlivePrivate :=
  with_alive true (with_floating floating_
    (mkPriv None None None None 0 false false false false)).

(** ** Operations on a tracker: the public mutators, the query, and the
    callbacks the main loop may deliver. *)

Inductive op :=
| Op_sink
| Op_set_forced (b : bool)
| Op_set_connection_watch (c : option nat)
| Op_set_dbus_client_watch (bus : nat) (client : option string)
| Op_connection_flags_changed (c : nat) (visible : bool)
| Op_get_name_owner_reply (r : call_result)
| Op_name_owner_changed (new_owner : string)
| Op_is_alive.

(** An external change of the VISIBLE flag of settings connection [c]; the
    flags-changed handler runs only when [c] is the watched connection. *)
Definition set_conn_visible (c : nat) (v : bool) : M unit :=
  fun s => (tt, mkSys (priv s)
              (mkWorld (fun c' => if Nat.eqb c' c then v else conn_visible (world s) c')
                       (next_handle (world s))), []).

Definition step (o : op) : M unit :=
  match o with
  | Op_sink => nm_keep_alive_sink
  | Op_set_forced b => nm_keep_alive_set_forced b
  | Op_set_connection_watch c => nm_keep_alive_set_settings_connection_watch_visible c
  | Op_set_dbus_client_watch bus a => nm_keep_alive_set_dbus_client_watch bus a
  | Op_connection_flags_changed c v =>
      set_conn_visible c v ;;;
      p <- get_priv ;;
      if option_nat_eqb (connection p) (Some c) then connection_flags_changed else ret tt
  | Op_get_name_owner_reply r => get_name_owner_cb r
  | Op_name_owner_changed o => name_owner_changed_cb o
  | Op_is_alive => nm_keep_alive_is_alive ;;; ret tt
  end.

Fixpoint run (os : list op) : M unit :=
  match os with
  | [] => ret tt
  | o :: os' => step o ;;; run os'
  end.

Definition final {A} (r : A * Sys * list event) : Sys := snd (fst r).
Definition log {A} (r : A * Sys * list event) : list event := snd r.
Definition value {A} (r : A * Sys * list event) : A := fst (fst r).

Fixpoint notifications (l : list event) : list bool :=
  match l with
  | [] => []
  | Ev_notify_alive v :: l' => v :: notifications l'
  | _ :: l' => notifications l'
  end.

Fixpoint name_owner_calls (l : list event) : nat :=
  match l with
  | [] => 0
  | Ev_get_name_owner _ _ _ :: l' => S (name_owner_calls l')
  | _ :: l' => name_owner_calls l'
  end.

(** The derivation rule of the specification (section 4.1), in its
    precedence order. *)
Definition derive_alive (s : Sys) : bool :=
  let p := priv s in
  if floating p then true
  else if forced p then true
  else if (match connection p with
           | Some c => conn_visible (world s) c
           | None => false
           end) then true
  else if (match dbus_client p with Some _ => true | None => false end) then true
  else false.

Definition inv (s : Sys) : Prop := alive (priv s) = derive_alive s.

Definition is_arm (o : op) : bool :=
  match o with
  | Op_set_dbus_client_watch _ (Some _) => true
  | _ => false
  end.

(** One pending confirmation is owed while a client is armed and not yet
    confirmed. *)
Definition confirmation_owed (s : Sys) : nat :=
  match dbus_client (priv s), dbus_client_confirmed (priv s) with
  | Some _, false => 1
  | _, _ => 0
  end.

(** VISIBLE flag of the watched settings connection, if any. *)
Definition connection_visible_now (s : Sys) : bool :=
  match connection (priv s) with
  | Some c => conn_visible (world s) c
  | None => false
  end.

(** The recomputation gets as far as the D-Bus client check. *)
Definition reaches_client_check (s : Sys) : bool :=
  negb (floating (priv s)) && negb (forced (priv s)) && negb (connection_visible_now s).

Definition world0 : World := mkWorld (fun _ => false) 100.

(** A fresh tracker, created floating. *)
Definition s_new_true : Sys := mkSys (nm_keep_alive_new true) world0.

(** The fields the derivation rule reads. *)
Definition same_inputs (s s' : Sys) : Prop :=
  connection (priv s') = connection (priv s) /\
  dbus_client (priv s') = dbus_client (priv s) /\
  floating (priv s') = floating (priv s) /\
  forced (priv s') = forced (priv s) /\
  conn_visible (world s') = conn_visible (world s).

(** Fields untouched by the liveness computation. *)
Definition is_alive_frame (s s' : Sys) : Prop :=
  same_inputs s s' /\
  dbus_connection (priv s') = dbus_connection (priv s) /\
  subscription_id (priv s') = subscription_id (priv s) /\
  alive (priv s') = alive (priv s).

(** ** Object lifetime *)

(** The private record as zero-filled by [g_object_new], before
    [nm_keep_alive_init] runs. *)
Definition nm_keep_alive_zero : NMKeepAlivePrivate :=
  mkPriv None None None None 0 false false false false.

(** The assertion [priv->alive == _is_alive (self)] of [nm_keep_alive_init]
    and [nm_keep_alive_new], as a boolean. *)
Definition alive_assertion (s : Sys) : bool :=
  Bool.eqb (alive (priv s)) (fst (fst (_is_alive s))).

(** dispose *)
Definition dispose : M unit :=
  _set_settings_connection_watch_visible None false ;;;
  cleanup_dbus_watch.

(** ** Accounting of signal handlers and D-Bus subscriptions in the log *)

(** Connected minus disconnected flags-changed handlers on connection [c]. *)
Fixpoint handler_balance (c : nat) (l : list event) : Z :=
  match l with
  | [] => 0
  | Ev_signal_connect c' :: l' => (if Nat.eqb c c' then 1 else 0) + handler_balance c l'
  | Ev_signal_disconnect c' :: l' => (if Nat.eqb c c' then -1 else 0) + handler_balance c l'
  | _ :: l' => handler_balance c l'
  end%Z.

(** Subscribed minus unsubscribed NameOwnerChanged subscriptions with id [x]. *)
Fixpoint subscription_balance (x : nat) (l : list event) : Z :=
  match l with
  | [] => 0
  | Ev_subscribe _ _ x' :: l' => (if Nat.eqb x x' then 1 else 0) + subscription_balance x l'
  | Ev_unsubscribe _ x' :: l' => (if Nat.eqb x x' then -1 else 0) + subscription_balance x l'
  | _ :: l' => subscription_balance x l'
  end%Z.

(** 1 when the tracker holds its handler on connection [c]. *)
Definition watched_ind (c : nat) (s : Sys) : Z :=
  match connection (priv s) with
  | Some c' => if Nat.eqb c c' then 1%Z else 0%Z
  | None => 0%Z
  end.

(** 1 when the tracker holds the subscription with id [x]. *)
Definition subscribed_ind (x : nat) (s : Sys) : Z :=
  match dbus_connection (priv s) with
  | Some _ => if Nat.eqb x (subscription_id (priv s)) then 1%Z else 0%Z
  | None => 0%Z
  end.

Definition is_some {A} (o : option A) : bool :=
  match o with Some _ => true | None => false end.

(** A D-Bus client is stored exactly when a D-Bus connection is held. *)
Definition watch_pairing (s : Sys) : Prop :=
  is_some (dbus_client (priv s)) = is_some (dbus_connection (priv s)).

(** A confirmation cancellable is held only while a client is armed and
    its confirmation has been issued. *)
Definition cancellable_ok (s : Sys) : bool :=
  match dbus_client (priv s), dbus_client_confirmed (priv s),
        dbus_client_confirm_cancellable (priv s) with
  | None, _, Some _ => false
  | Some _, false, Some _ => false
  | _, _, _ => true
  end.

(** The state reached by [nm_keep_alive_new b] in world [w] followed by
    the operations [os]. *)
Definition created (b : bool) (w : World) (os : list op) : Sys :=
  final (run os (mkSys (nm_keep_alive_new b) w)).

(** No confirmation is owed at a state whose recomputation reaches the
    D-Bus client check: a recomputation there issues no GetNameOwner call
    and changes nothing. *)
Definition confirmation_settled (s : Sys) : bool :=
  negb (reaches_client_check s && is_some (dbus_client (priv s))
        && negb (dbus_client_confirmed (priv s))).

(** ** Basic lemmas *)

Ltac ka_unfold :=
  cbv [ _is_alive _is_alive_dbus_client _notify_alive nm_keep_alive_is_alive
        nm_keep_alive_sink nm_keep_alive_set_forced connection_flags_changed
        _set_settings_connection_watch_visible swap_settings_connection
        nm_keep_alive_set_settings_connection_watch_visible
        clear_confirm_cancellable cleanup_dbus_watch get_name_owner_cb
        name_owner_changed_cb register_dbus_client_watch
        nm_keep_alive_set_dbus_client_watch set_conn_visible step
        g_cancellable_new g_dbus_connection_signal_subscribe fresh_handle
        connection_is_visible get_priv modify_priv emit ret bind
        final log value derive_alive inv same_inputs is_alive_frame
        dispose alive_assertion watched_ind subscribed_ind is_some watch_pairing
        cancellable_ok
        with_connection with_dbus_connection with_dbus_client with_cancellable
        with_subscription_id with_floating with_forced with_alive with_confirmed ].

Ltac ka_destr :=
  let s := fresh "s" in
  match goal with
  | [ x : Sys |- _ ] =>
      destruct x as [[? ? ? ? ? ? ? ? ?] [? ?]]
  end.

Ltac ka_split x :=
  lazymatch type of x with
  | prod _ _ => fail
  | _ => destruct x eqn:?
  end.

Ltac ka_cases :=
  repeat (simpl in *;
          match goal with
          | [ |- context [match ?x with _ => _ end] ] => ka_split x
          | [ H : context [match ?x with _ => _ end] |- _ ] => ka_split x
          end);
  simpl in *.

Lemma same_inputs_derive s s' : same_inputs s s' -> derive_alive s' = derive_alive s.
Proof.
  destruct s as [[] []], s' as [[] []]; ka_unfold; simpl.
  intros (-> & -> & -> & -> & ->); reflexivity.
Qed.

Lemma is_alive_value s : value (_is_alive s) = derive_alive s.
Proof. ka_destr; ka_unfold; ka_cases; congruence. Qed.

Lemma is_alive_frame_ok s : is_alive_frame s (final (_is_alive s)).
Proof. ka_destr; ka_unfold; ka_cases; repeat split; congruence. Qed.

Lemma is_alive_no_notify s : notifications (log (_is_alive s)) = [].
Proof. ka_destr; ka_unfold; ka_cases; reflexivity. Qed.

Ltac ka_eqs :=
  repeat match goal with
  | [ H : Nat.eqb _ _ = true |- _ ] => apply Nat.eqb_eq in H; subst
  | [ H : String.eqb _ _ = true |- _ ] => apply String.eqb_eq in H; subst
  end.

Ltac ka_gen_visible f x :=
  lazymatch type of f with
  | nat -> bool =>
      let b := fresh "v" in
      let Hv := fresh "Hv" in
      remember (f x) as b eqn:Hv in *; clear Hv
  end.

Ltac ka_bools :=
  repeat match goal with
  | [ H : context [?f ?x] |- _ ] => ka_gen_visible f x
  | [ |- context [?f ?x] ] => ka_gen_visible f x
  end;
  repeat match goal with
  | [ b : bool |- _ ] => destruct b
  end; simpl in *; try congruence.

Ltac ka_crush :=
  ka_destr; ka_unfold; intros; ka_cases; ka_eqs; ka_cases; try congruence;
  ka_bools.

Lemma step_inv o s : inv s -> inv (final (step o s)).
Proof. destruct o; ka_crush. Qed.

Lemma step_notifications o s :
  inv s ->
  notifications (log (step o s)) =
  (if Bool.eqb (alive (priv s)) (derive_alive (final (step o s))) then []
   else [derive_alive (final (step o s))]).
Proof. destruct o; ka_crush. Qed.

(** ** Monad lemmas *)

Lemma final_bind {A B} (m : M A) (k : A -> M B) s :
  final (bind m k s) = final (k (value (m s)) (final (m s))).
Proof.
  unfold bind, final, value.
  destruct (m s) as [[a s1] l1]; simpl; destruct (k a s1) as [[b s2] l2]; reflexivity.
Qed.

Lemma log_bind {A B} (m : M A) (k : A -> M B) s :
  log (bind m k s) = log (m s) ++ log (k (value (m s)) (final (m s))).
Proof.
  unfold bind, final, value, log.
  destruct (m s) as [[a s1] l1]; simpl; destruct (k a s1) as [[b s2] l2]; reflexivity.
Qed.

Lemma name_owner_calls_app l1 l2 :
  name_owner_calls (l1 ++ l2) = name_owner_calls l1 + name_owner_calls l2.
Proof. induction l1 as [|[] l1 IH]; simpl; auto. Qed.

Lemma run_inv os s : inv s -> inv (final (run os s)).
Proof.
  revert s; induction os as [|o os IH]; intros s H; simpl.
  - exact H.
  - rewrite final_bind. apply IH, step_inv, H.
Qed.

(** Every non-arming step pays for each GetNameOwner call it issues with
    the confirmation owed before it. *)
Lemma step_calls o s :
  is_arm o = false ->
  name_owner_calls (log (step o s)) + confirmation_owed (final (step o s))
  <= confirmation_owed s.
Proof.
  unfold confirmation_owed.
  destruct o as [| | |bus [a|] | | | |]; simpl; intro Harm; try discriminate;
    ka_destr; ka_unfold; ka_cases; ka_eqs; ka_cases; lia.
Qed.

Lemma run_calls os s :
  forallb (fun o => negb (is_arm o)) os = true ->
  name_owner_calls (log (run os s)) + confirmation_owed (final (run os s))
  <= confirmation_owed s.
Proof.
  revert s; induction os as [|o os IH]; intros s H; simpl in *.
  - unfold log, final, ret; simpl; lia.
  - apply andb_prop in H as [Ho Hos].
    rewrite log_bind, final_bind, name_owner_calls_app.
    pose proof (step_calls o s (proj1 (negb_true_iff _) Ho)).
    specialize (IH (final (step o s)) Hos). unfold value in *. simpl in *. lia.
Qed.

Lemma arm_calls bus a s :
  name_owner_calls (log (nm_keep_alive_set_dbus_client_watch bus (Some a) s))
  + confirmation_owed (final (nm_keep_alive_set_dbus_client_watch bus (Some a) s)) <= 1.
Proof.
  unfold confirmation_owed.
  ka_destr; ka_unfold; ka_cases; ka_eqs; ka_cases; lia.
Qed.

(** Teardown followed by the recompute step. *)
Lemma teardown_then_recompute s :
  dbus_client (priv (final ((cleanup_dbus_watch ;;; _notify_alive) s))) = None /\
  alive (priv (final ((cleanup_dbus_watch ;;; _notify_alive) s))) =
  derive_alive (final ((cleanup_dbus_watch ;;; _notify_alive) s)).
Proof. ka_destr; ka_unfold; ka_cases; ka_eqs; ka_cases; try (split; congruence); ka_bools; split; reflexivity. Qed.

Ltac ka_eqs2 :=
  repeat match goal with
  | [ H : Nat.eqb _ _ = true |- _ ] => apply Nat.eqb_eq in H; subst
  | [ H : String.eqb _ _ = true |- _ ] => apply String.eqb_eq in H; subst
  | [ H : Some _ = Some _ |- _ ] => injection H as H; subst
  | [ H : Nat.eqb ?n ?n = false |- _ ] => rewrite Nat.eqb_refl in H; discriminate H
  | [ H : String.eqb ?n ?n = false |- _ ] => rewrite String.eqb_refl in H; discriminate H
  end.

Ltac ka_split2 x :=
  lazymatch type of x with
  | prod _ _ => fail
  | Z => fail
  | positive => fail
  | _ => destruct x eqn:?
  end.

Ltac ka_cases2 :=
  repeat (cbn -[Z.add Z.opp] in *;
          match goal with
          | [ |- context [match ?x with _ => _ end] ] => ka_split2 x
          | [ H : context [match ?x with _ => _ end] |- _ ] => ka_split2 x
          end);
  cbn -[Z.add Z.opp] in *.

Ltac ka_crush2 :=
  ka_destr; ka_unfold; intros; ka_cases2; ka_eqs2; ka_cases2; ka_eqs2; try congruence; try lia;
  ka_bools.

Ltac ka_finish := cbv [option_nat_eqb] in *; ka_cases2; ka_eqs2; ka_cases2; ka_eqs2; try congruence; try lia; ka_bools.

Ltac ka_all :=
  ka_destr; ka_unfold; intros; repeat split; intros; ka_finish;
  repeat split; ka_finish.

Lemma new_assertion_floating b w :
  alive_assertion (mkSys (nm_keep_alive_new b) w) = true -> b = true.
Proof. destruct b; [reflexivity|discriminate]. Qed.

Lemma step_settled o s :
  confirmation_settled s = true -> confirmation_settled (final (step o s)) = true.
Proof.
  unfold confirmation_settled, reaches_client_check, connection_visible_now.
  destruct o; ka_crush2; ka_finish.
Qed.

Lemma run_settled os s :
  confirmation_settled s = true -> confirmation_settled (final (run os s)) = true.
Proof.
  revert s; induction os as [|o os IH]; intros s H; simpl.
  - exact H.
  - rewrite final_bind. apply IH, step_settled, H.
Qed.

Lemma created_inv b w os :
  alive_assertion (mkSys (nm_keep_alive_new b) w) = true -> inv (created b w os).
Proof.
  intro H. apply new_assertion_floating in H; subst b.
  unfold created. apply run_inv. reflexivity.
Qed.

Lemma created_settled b w os : confirmation_settled (created b w os) = true.
Proof. unfold created. apply run_settled. destruct b; reflexivity. Qed.

(** Re-setting the watched connection, then recomputing, is invisible at a
    state whose cached flag agrees with the rule and that owes no
    confirmation. *)
Lemma resetting_connection_unobservable c s :
  inv s -> confirmation_settled s = true ->
  final (nm_keep_alive_set_settings_connection_watch_visible c s) =
  final ((swap_settings_connection c ;;; _notify_alive) s) /\
  notifications (log (nm_keep_alive_set_settings_connection_watch_visible c s)) =
  notifications (log ((swap_settings_connection c ;;; _notify_alive) s)).
Proof.
  unfold confirmation_settled, reaches_client_check, connection_visible_now.
  ka_crush2; ka_finish.
  all: split; reflexivity.
Qed.

(** ** C1: the recomputed liveness value *)

(** C1: for every state, the value computed by [_is_alive] is the
    precedence-ordered derivation rule: floating, else forced, else a
    present and visible settings connection, else an armed D-Bus client,
    else not alive. *)
Theorem is_alive_follows_derivation_rule :
  forall s, value (_is_alive s) = derive_alive s.
Proof. intro s; apply is_alive_value. Qed.

(** ** C2: notification policy *)

(** C2: on every tracker whose constructor assertion
    [priv->alive == _is_alive (self)] holds (created floating; creation
    with FALSE fails it, see [alive_assertion]), after any sequence of
    operations, every mutator and callback fires exactly one notification,
    carrying the new value, when the newly derived value differs from the
    cached one, and none otherwise.  The same holds from every state whose
    cached flag agrees with the rule.  Setting [forced] to its current
    value, and sinking a second time, change nothing and fire nothing,
    from any state. *)
Theorem notification_policy_under_invariant :
  (forall b w os o, alive_assertion (mkSys (nm_keep_alive_new b) w) = true ->
     notifications (log (step o (created b w os))) =
     (if Bool.eqb (alive (priv (created b w os)))
                  (derive_alive (final (step o (created b w os)))) then []
      else [derive_alive (final (step o (created b w os)))])) /\
  (forall o s, inv s ->
     notifications (log (step o s)) =
     (if Bool.eqb (alive (priv s)) (derive_alive (final (step o s))) then []
      else [derive_alive (final (step o s))])) /\
  (forall s, step (Op_set_forced (forced (priv s))) s = (tt, s, [])) /\
  (forall s, step Op_sink (final (step Op_sink s)) = (tt, final (step Op_sink s), [])).
Proof.
  split; [intros b w os o H; apply step_notifications, created_inv, H|].
  split; [exact step_notifications|].
  split.
  - intro s. ka_destr; ka_unfold; ka_cases; ka_bools.
  - intro s. ka_destr; ka_unfold; ka_cases; ka_bools.
Qed.

Lemma notification_policy_under_invariant_witness :
  alive_assertion (mkSys (nm_keep_alive_new true) world0) = true /\
  notifications (log (step Op_sink (created true world0 []))) = [false].
Proof.
  split; [vm_compute; reflexivity|].
  rewrite (proj1 notification_policy_under_invariant true world0 [] Op_sink
             ltac:(vm_compute; reflexivity)).
  vm_compute; reflexivity.
Defined.

(** ** C3: construction and the invariant *)

(** C3: [nm_keep_alive_new b] starts with [alive = TRUE], not forced, no
    connection and no D-Bus client.  When its own assertion
    [priv->alive == _is_alive (self)] holds (which is exactly creation with
    [b] TRUE, see [alive_assertion]), the tracker starts floating, its
    cached alive flag agrees with the derivation rule, and it keeps
    agreeing after any sequence of operations; every mutator and callback
    preserves the agreement from any state where it holds. *)
Theorem new_alive_and_invariant_preserved :
  (forall b, alive (nm_keep_alive_new b) = true /\
             forced (nm_keep_alive_new b) = false /\
             connection (nm_keep_alive_new b) = None /\
             dbus_client (nm_keep_alive_new b) = None) /\
  (forall b w, alive_assertion (mkSys (nm_keep_alive_new b) w) = true ->
     floating (nm_keep_alive_new b) = true /\
     inv (mkSys (nm_keep_alive_new b) w) /\
     forall os, inv (created b w os)) /\
  (forall o s, inv s -> inv (final (step o s))).
Proof.
  split; [intro b; repeat split|].
  split; [|exact step_inv].
  intros b w H. split; [|split].
  - apply new_assertion_floating in H; subst b; reflexivity.
  - apply (created_inv b w [] H).
  - intro os; apply created_inv, H.
Qed.

Lemma new_alive_and_invariant_preserved_witness :
  alive_assertion (mkSys (nm_keep_alive_new true) world0) = true /\
  inv (created true world0 [Op_sink; Op_set_forced true]).
Proof.
  split; [vm_compute; reflexivity|].
  apply (proj2 (proj1 (proj2 new_alive_and_invariant_preserved) true world0
                  ltac:(vm_compute; reflexivity))).
Defined.

(** ** C4: when the confirmation request is issued *)

(** C4 (counterexample): on a sunk tracker with nothing else keeping it
    alive, arming a client watch issues the GetNameOwner request during the
    arming call itself, with no query of the alive flag. *)
Lemma arming_issues_confirmation_eagerly :
  ~ (forall bus a s,
       name_owner_calls (log (nm_keep_alive_set_dbus_client_watch bus (Some a) s)) = 0).
Proof.
  intro H. specialize (H 7 "client.X"%string (final (step Op_sink s_new_true))).
  vm_compute in H. discriminate.
Qed.

(** C4 (amended): [nm_keep_alive_is_alive] only reads the cached flag and
    never issues the request; a recomputation issues it exactly when it
    reaches the client check (not floating, not forced, no visible
    connection) with an armed, unconfirmed client; so arming issues it
    at once exactly when the tracker reaches the client check. *)
Theorem confirmation_issued_by_recomputation :
  (forall s, nm_keep_alive_is_alive s = (alive (priv s), s, [])) /\
  (forall s, name_owner_calls (log (_is_alive s)) =
             if reaches_client_check s
                && (match dbus_client (priv s) with Some _ => true | None => false end)
                && negb (dbus_client_confirmed (priv s))
             then 1 else 0) /\
  (forall bus a s,
     name_owner_calls (log (nm_keep_alive_set_dbus_client_watch bus (Some a) s)) =
     if reaches_client_check s then 1 else 0).
Proof.
  unfold reaches_client_check, connection_visible_now.
  split; [intro s; ka_destr; reflexivity|].
  split; intros; ka_destr; ka_unfold; ka_cases; ka_eqs; ka_cases; try reflexivity; try congruence.
  all: ka_bools.
Qed.

(** ** C5: re-setting the watched settings connection *)

(** C5: a call that replaces the watched connection moves the
    flags-changed handler and then recomputes and notifies.  A call passing
    the connection already watched returns at once in the code, but on
    every tracker whose constructor assertion holds, after any sequence of
    operations, this is indistinguishable from replacing and recomputing:
    the resulting state and the notifications fired are the same. *)
Theorem set_connection_watch_recomputes :
  (forall c s, option_nat_eqb (connection (priv s)) c = false ->
     nm_keep_alive_set_settings_connection_watch_visible c s =
     (swap_settings_connection c ;;; _notify_alive) s) /\
  (forall b w os c, alive_assertion (mkSys (nm_keep_alive_new b) w) = true ->
     final (nm_keep_alive_set_settings_connection_watch_visible c (created b w os)) =
     final ((swap_settings_connection c ;;; _notify_alive) (created b w os)) /\
     notifications (log (nm_keep_alive_set_settings_connection_watch_visible c
                           (created b w os))) =
     notifications (log ((swap_settings_connection c ;;; _notify_alive)
                           (created b w os)))).
Proof.
  split.
  - intros c s Hc.
    cbv [nm_keep_alive_set_settings_connection_watch_visible
         _set_settings_connection_watch_visible get_priv bind ret].
    rewrite Hc.
    destruct (swap_settings_connection c s) as [[[] s1] l1].
    destruct (_notify_alive s1) as [[[] s2] l2]; reflexivity.
  - intros b w os c H.
    apply resetting_connection_unobservable; [apply created_inv, H|apply created_settled].
Qed.

Lemma set_connection_watch_recomputes_witness :
  alive_assertion (mkSys (nm_keep_alive_new true) world0) = true /\
  final (nm_keep_alive_set_settings_connection_watch_visible None
           (created true world0 [Op_sink; Op_set_dbus_client_watch 7 (Some "client.X"%string)])) =
  final ((swap_settings_connection None ;;; _notify_alive)
           (created true world0 [Op_sink; Op_set_dbus_client_watch 7 (Some "client.X"%string)])).
Proof.
  split; [vm_compute; reflexivity|].
  apply (proj1 (proj2 set_connection_watch_recomputes true world0
           [Op_sink; Op_set_dbus_client_watch 7 (Some "client.X"%string)] None
           ltac:(vm_compute; reflexivity))).
Defined.

(** ** C6: completion of the GetNameOwner call *)

(** C6: a cancelled call changes nothing and fires nothing; any other
    error, or an owner different from the watched client, tears the watch
    down and recomputes and notifies (after which no client is watched and
    the cached flag agrees with the rule); the watched client as owner
    changes nothing. *)
Theorem get_name_owner_cb_outcomes :
  (forall s, get_name_owner_cb Res_cancelled s = (tt, s, [])) /\
  (forall s, get_name_owner_cb Res_error s = (cleanup_dbus_watch ;;; _notify_alive) s) /\
  (forall o s, dbus_client (priv s) <> Some o ->
     get_name_owner_cb (Res_ok o) s = (cleanup_dbus_watch ;;; _notify_alive) s) /\
  (forall o s, dbus_client (priv s) = Some o -> get_name_owner_cb (Res_ok o) s = (tt, s, [])) /\
  (forall s,
     dbus_client (priv (final ((cleanup_dbus_watch ;;; _notify_alive) s))) = None /\
     alive (priv (final ((cleanup_dbus_watch ;;; _notify_alive) s))) =
     derive_alive (final ((cleanup_dbus_watch ;;; _notify_alive) s))).
Proof.
  split; [|split; [|split; [|split]]].
  - intro s. destruct s as [[] []]; reflexivity.
  - intro s. destruct s as [[] []]; cbv [get_name_owner_cb get_priv bind ret]; simpl.
    match goal with
    | [ |- context [cleanup_dbus_watch ?st] ] =>
        destruct (cleanup_dbus_watch st) as [[[] s1] l1]
    end.
    destruct (_notify_alive s1) as [[[] s2] l2]; reflexivity.
  - intros o s Hne. destruct s as [[] []]; cbv [get_name_owner_cb get_priv bind ret nm_streq];
      simpl in *.
    replace (match dbus_client0 with Some b => String.eqb o b | None => false end) with false.
    + match goal with
      | [ |- context [cleanup_dbus_watch ?st] ] =>
          destruct (cleanup_dbus_watch st) as [[[] s1] l1]
      end.
      destruct (_notify_alive s1) as [[[] s2] l2]; reflexivity.
    + destruct dbus_client0 as [c|]; [|reflexivity].
      symmetry; apply String.eqb_neq; congruence.
  - intros o s Heq. destruct s as [[] []]; cbv [get_name_owner_cb get_priv bind ret nm_streq];
      simpl in *. subst. rewrite String.eqb_refl. reflexivity.
  - exact teardown_then_recompute.
Qed.

Lemma get_name_owner_cb_outcomes_witness :
  get_name_owner_cb (Res_ok "client.X"%string)
    (mkSys (with_dbus_client (Some "client.X"%string) (nm_keep_alive_new false)) world0)
  = (tt, mkSys (with_dbus_client (Some "client.X"%string) (nm_keep_alive_new false)) world0, []).
Proof.
  apply (proj1 (proj2 (proj2 (proj2 get_name_owner_cb_outcomes)))). reflexivity.
Defined.

(** ** C7: one confirmation per arming *)

(** C7: arming a client watch stores the client with the confirmed flag
    reset to false; from the arming call on, along any sequence of
    operations without a further arming (teardowns included), at most one
    GetNameOwner request is issued. *)
Theorem confirmation_at_most_once_per_arm :
  (forall bus a s,
     dbus_client (priv (final (register_dbus_client_watch bus (Some a) s))) = Some a /\
     dbus_client_confirmed (priv (final (register_dbus_client_watch bus (Some a) s))) = false) /\
  (forall bus a os s,
     forallb (fun o => negb (is_arm o)) os = true ->
     name_owner_calls (log ((nm_keep_alive_set_dbus_client_watch bus (Some a) ;;; run os) s)) <= 1).
Proof.
  split.
  - intros bus a s. ka_destr; ka_unfold; ka_cases; split; reflexivity.
  - intros bus a os s Hos.
    rewrite log_bind, name_owner_calls_app.
    pose proof (arm_calls bus a s) as H1.
    pose proof (run_calls os (final (nm_keep_alive_set_dbus_client_watch bus (Some a) s)) Hos) as H2.
    unfold value in *. lia.
Qed.

Lemma confirmation_at_most_once_per_arm_witness :
  name_owner_calls
    (log ((nm_keep_alive_set_dbus_client_watch 7 (Some "client.X"%string) ;;;
           run [Op_is_alive; Op_set_forced false; Op_is_alive])
          (final (step Op_sink s_new_true)))) <= 1.
Proof. apply (proj2 confirmation_at_most_once_per_arm). reflexivity. Defined.

(** ** C8: NameOwnerChanged *)

(** C8: a NameOwnerChanged signal with an empty new owner tears the watch
    down and recomputes and notifies; with a non-empty new owner it changes
    nothing and fires nothing. *)
Theorem name_owner_changed_outcomes :
  (forall s, name_owner_changed_cb ""%string s = (cleanup_dbus_watch ;;; _notify_alive) s) /\
  (forall o s, o <> ""%string -> name_owner_changed_cb o s = (tt, s, [])).
Proof.
  split.
  - intro s. reflexivity.
  - intros o s Hne. unfold name_owner_changed_cb.
    apply String.eqb_neq in Hne. rewrite Hne. reflexivity.
Qed.

Lemma name_owner_changed_outcomes_witness :
  name_owner_changed_cb ":1.42"%string s_new_true = (tt, s_new_true, []).
Proof. apply (proj2 name_owner_changed_outcomes). discriminate. Defined.

(** ** C9: teardown of the client watch *)

(** C9: with no client armed, [cleanup_dbus_watch] is a no-op; with one, it
    cancels the pending confirmation (if any), clears the client and the
    D-Bus connection and unsubscribes from NameOwnerChanged; a second
    teardown is a no-op. *)
Theorem cleanup_dbus_watch_effects :
  (forall s, dbus_client (priv s) = None -> cleanup_dbus_watch s = (tt, s, [])) /\
  (forall s c, dbus_client (priv s) = Some c ->
     let s' := final (cleanup_dbus_watch s) in
     dbus_client (priv s') = None /\
     dbus_client_confirm_cancellable (priv s') = None /\
     dbus_connection (priv s') = None /\
     log (cleanup_dbus_watch s) =
       (match dbus_client_confirm_cancellable (priv s) with
        | Some h => [Ev_cancel h] | None => [] end) ++
       (match dbus_connection (priv s) with
        | Some bus => [Ev_unsubscribe bus (subscription_id (priv s))] | None => [] end)) /\
  (forall s, cleanup_dbus_watch (final (cleanup_dbus_watch s)) =
             (tt, final (cleanup_dbus_watch s), [])).
Proof.
  split; [|split].
  - intros s H. ka_destr; ka_unfold; simpl in *; subst; reflexivity.
  - intros s c H. ka_destr; ka_unfold; simpl in *; subst; ka_cases; repeat split; reflexivity.
  - intro s. ka_destr; ka_unfold; ka_cases; try discriminate; reflexivity.
Qed.

Lemma cleanup_dbus_watch_effects_witness :
  cleanup_dbus_watch s_new_true = (tt, s_new_true, []).
Proof. apply (proj1 cleanup_dbus_watch_effects). reflexivity. Defined.

(** ** C10: the frame of sink *)

(** C10: [nm_keep_alive_sink] changes only the floating flag, the cached
    alive flag, the confirmed flag and the confirmation cancellable of the
    private record; forced, the watched connection, the D-Bus client, the
    D-Bus connection and the subscription are untouched, as are the
    connection flags. *)
Theorem sink_frame :
  forall s,
    let s' := final (step Op_sink s) in
    priv s' =
      with_cancellable (dbus_client_confirm_cancellable (priv s'))
        (with_confirmed (dbus_client_confirmed (priv s'))
          (with_alive (alive (priv s'))
            (with_floating (floating (priv s')) (priv s)))) /\
    conn_visible (world s') = conn_visible (world s).
Proof. intro s. ka_destr; ka_unfold; ka_cases; split; reflexivity. Qed.

(** ** Further properties of the code *)

Lemma handler_balance_app c l1 l2 :
  handler_balance c (l1 ++ l2) = (handler_balance c l1 + handler_balance c l2)%Z.
Proof. induction l1 as [|[] l1 IH]; simpl; try rewrite IH; try lia. Qed.

Lemma subscription_balance_app x l1 l2 :
  subscription_balance x (l1 ++ l2) = (subscription_balance x l1 + subscription_balance x l2)%Z.
Proof. induction l1 as [|[] l1 IH]; simpl; try rewrite IH; try lia. Qed.

Lemma notifications_app l1 l2 : notifications (l1 ++ l2) = notifications l1 ++ notifications l2.
Proof. induction l1 as [|[] l1 IH]; simpl; try rewrite IH; reflexivity. Qed.

(** X1: every operation fires at most one alive notification; the cached
    alive flag changes exactly when one fires, and it carries the new value. *)
Theorem step_notification_tracks_alive o s :
  notifications (log (step o s)) =
  (if Bool.eqb (alive (priv s)) (alive (priv (final (step o s)))) then []
   else [alive (priv (final (step o s)))]).
Proof. destruct o; ka_crush2. Qed.

Lemma step_floating o s :
  floating (priv (final (step o s))) = true -> floating (priv s) = true.
Proof. destruct o; ka_crush2. Qed.

Lemma step_handlers o s c :
  (watched_ind c s + handler_balance c (log (step o s)))%Z = watched_ind c (final (step o s)).
Proof. destruct o; ka_crush2. Qed.

Lemma step_pairing o s : watch_pairing s -> watch_pairing (final (step o s)).
Proof. destruct o; ka_crush2. Qed.

Lemma step_subscriptions o s x :
  watch_pairing s ->
  (subscribed_ind x s + subscription_balance x (log (step o s)))%Z =
  subscribed_ind x (final (step o s)).
Proof. destruct o; ka_crush2. Qed.

Lemma step_cancellable o s :
  cancellable_ok s = true -> cancellable_ok (final (step o s)) = true.
Proof. destruct o; ka_crush2. Qed.

Lemma dispose_props s :
  notifications (log (dispose s)) = [] /\
  (forall c, (watched_ind c s + handler_balance c (log (dispose s)))%Z = 0%Z) /\
  (watch_pairing s -> forall x,
     (subscribed_ind x s + subscription_balance x (log (dispose s)))%Z = 0%Z) /\
  connection (priv (final (dispose s))) = None /\
  dbus_client (priv (final (dispose s))) = None /\
  (cancellable_ok s = true -> dbus_client_confirm_cancellable (priv (final (dispose s))) = None) /\
  (watch_pairing s -> dbus_connection (priv (final (dispose s))) = None) /\
  floating (priv (final (dispose s))) = floating (priv s) /\
  forced (priv (final (dispose s))) = forced (priv s) /\
  alive (priv (final (dispose s))) = alive (priv s).
Proof. ka_all. Qed.

Lemma step_forced o s :
  inv s -> forced (priv s) = true -> o <> Op_set_forced false ->
  inv (final (step o s)) /\ forced (priv (final (step o s))) = true /\
  alive (priv (final (step o s))) = true /\ notifications (log (step o s)) = [].
Proof. destruct o as [|[]| | | | | |]; ka_all. Qed.

(** X10: the assertion of [nm_keep_alive_init] holds on the zero-filled
    object, and the assertion of [nm_keep_alive_new b] holds exactly when
    [b] is TRUE. *)
Theorem init_and_new_assertions :
  (forall w, alive_assertion (mkSys nm_keep_alive_zero w) = true) /\
  (forall b w, alive_assertion (mkSys (nm_keep_alive_new b) w) = b).
Proof. split; intros; [|destruct b]; reflexivity. Qed.

(** X2: only [nm_keep_alive_sink] writes the floating flag, and it only
    clears it: every other operation leaves it as it was, sink leaves it
    FALSE, so no sequence of operations makes a tracker floating again. *)
Theorem floating_never_restored :
  (forall o s, o <> Op_sink -> floating (priv (final (step o s))) = floating (priv s)) /\
  (forall s, floating (priv (final (step Op_sink s))) = false) /\
  (forall os s, floating (priv (final (run os s))) = true -> floating (priv s) = true).
Proof.
  split; [|split].
  - intros o s Ho. destruct o; [congruence| | | | | | |]; ka_crush2; ka_finish.
  - intro s. ka_crush2.
  - intro os. induction os as [|o os IH]; intros s H; simpl in *.
    + exact H.
    + rewrite final_bind in H. apply (step_floating o), IH, H.
Qed.

Lemma run_forced os s :
  inv s -> forced (priv s) = true -> Forall (fun o => o <> Op_set_forced false) os ->
  inv (final (run os s)) /\ forced (priv (final (run os s))) = true /\
  alive (priv (final (run os s))) = true /\ notifications (log (run os s)) = [].
Proof.
  revert s; induction os as [|o os IH]; intros s Hi Hf Hos; simpl.
  - unfold final, log, ret; simpl. repeat split; auto.
    unfold inv in Hi. rewrite Hi. unfold derive_alive. destruct (floating (priv s)); simpl; auto.
    rewrite Hf. reflexivity.
  - inversion Hos as [|? ? Ho Hos']; subst.
    destruct (step_forced o s Hi Hf Ho) as (Hi' & Hf' & Ha' & Hn').
    destruct (IH _ Hi' Hf' Hos') as (Hi'' & Hf'' & Ha'' & Hn'').
    rewrite final_bind, log_bind, notifications_app. unfold value.
    repeat split; auto. rewrite Hn', Hn''. reflexivity.
Qed.

Lemma run_pairing os s : watch_pairing s -> watch_pairing (final (run os s)).
Proof.
  revert s; induction os as [|o os IH]; intros s H; simpl; [exact H|].
  rewrite final_bind. apply IH, step_pairing, H.
Qed.

Lemma run_handlers os s c :
  (watched_ind c s + handler_balance c (log (run os s)))%Z = watched_ind c (final (run os s)).
Proof.
  revert s; induction os as [|o os IH]; intros s; simpl.
  - unfold log, final, ret; simpl. lia.
  - rewrite log_bind, final_bind, handler_balance_app. unfold value.
    rewrite <- IH, <- (step_handlers o s c). lia.
Qed.

Lemma run_subscriptions os s x :
  watch_pairing s ->
  (subscribed_ind x s + subscription_balance x (log (run os s)))%Z =
  subscribed_ind x (final (run os s)).
Proof.
  revert s; induction os as [|o os IH]; intros s Hp; simpl.
  - unfold log, final, ret; simpl. lia.
  - rewrite log_bind, final_bind, subscription_balance_app. unfold value.
    rewrite <- (IH _ (step_pairing o s Hp)), <- (step_subscriptions o s x Hp). lia.
Qed.

Lemma run_cancellable os s :
  cancellable_ok s = true -> cancellable_ok (final (run os s)) = true.
Proof.
  revert s; induction os as [|o os IH]; intros s H; simpl; [exact H|].
  rewrite final_bind. apply IH, step_cancellable, H.
Qed.

Lemma call_needs_free_cancellable s :
  cancellable_ok s = true -> 0 < name_owner_calls (log (_is_alive s)) ->
  dbus_client_confirm_cancellable (priv s) = None.
Proof. ka_all. Qed.

(** X9: whatever happens to a tracker after its creation, disposing it
    leaves no flags-changed handler connected and no NameOwnerChanged
    subscription alive, and the disposal fires no notification. *)
Theorem lifecycle_releases_all b w os c x :
  handler_balance c (log ((run os ;;; dispose) (mkSys (nm_keep_alive_new b) w))) = 0%Z /\
  subscription_balance x (log ((run os ;;; dispose) (mkSys (nm_keep_alive_new b) w))) = 0%Z /\
  notifications (log (dispose (final (run os (mkSys (nm_keep_alive_new b) w))))) = [].
Proof.
  set (s0 := mkSys (nm_keep_alive_new b) w).
  assert (Hp : watch_pairing s0) by reflexivity.
  assert (Hw : watched_ind c s0 = 0%Z) by reflexivity.
  assert (Hs : subscribed_ind x s0 = 0%Z) by reflexivity.
  pose proof (run_handlers os s0 c) as H1.
  pose proof (run_subscriptions os s0 x Hp) as H2.
  destruct (dispose_props (final (run os s0))) as (Hn & Hd & Hsub & _).
  specialize (Hsub (run_pairing os s0 Hp) x).
  specialize (Hd c).
  rewrite !log_bind, handler_balance_app, subscription_balance_app. unfold value.
  repeat split; [lia | lia | exact Hn].
Qed.

(** X13: disabling the client watch (NULL client address) leaves no client
    and no D-Bus connection and recomputes the cached alive flag. *)
Theorem disable_watch_clears_client bus s :
  watch_pairing s ->
  let s' := final (nm_keep_alive_set_dbus_client_watch bus None s) in
  dbus_client (priv s') = None /\ dbus_connection (priv s') = None /\
  alive (priv s') = derive_alive s'.
Proof. ka_all. Qed.

(** X3: while [forced] is set, and as long as it is not cleared, the tracker
    stays alive and fires no notification. *)
Theorem forced_keeps_alive os s :
  inv s -> forced (priv s) = true -> Forall (fun o => o <> Op_set_forced false) os ->
  alive (priv (final (run os s))) = true /\ notifications (log (run os s)) = [].
Proof. intros Hi Hf Hos. destruct (run_forced os s Hi Hf Hos) as (_ & _ & Ha & Hn); auto. Qed.

Lemma forced_keeps_alive_witness :
  alive (priv (final (run [Op_sink; Op_set_dbus_client_watch 7 None; Op_is_alive]
                       (final (step (Op_set_forced true) s_new_true))))) = true.
Proof.
  apply (forced_keeps_alive [Op_sink; Op_set_dbus_client_watch 7 None; Op_is_alive]
           (final (step (Op_set_forced true) s_new_true))).
  - vm_compute; reflexivity.
  - vm_compute; reflexivity.
  - repeat constructor; discriminate.
Defined.

(** X4: a D-Bus client is stored exactly when a D-Bus connection is held:
    true after creation and kept by every operation. *)
Theorem client_connection_paired :
  (forall b w, watch_pairing (mkSys (nm_keep_alive_new b) w)) /\
  (forall os s, watch_pairing s -> watch_pairing (final (run os s))).
Proof. split; [intros; reflexivity | exact run_pairing]. Qed.

Lemma client_connection_paired_witness :
  watch_pairing (final (run [Op_sink; Op_set_dbus_client_watch 7 (Some "client.X"%string)]
                          s_new_true)).
Proof. apply (proj2 client_connection_paired). reflexivity. Defined.

(** X5: every flags-changed handler the tracker connects is disconnected
    again unless it sits on the currently watched connection: over any
    sequence of operations, connects minus disconnects on a connection is
    the change in whether it is the watched one. *)
Theorem flags_handler_accounting os s c :
  (watched_ind c s + handler_balance c (log (run os s)))%Z = watched_ind c (final (run os s)).
Proof. exact (run_handlers os s c). Qed.

(** X6: likewise for NameOwnerChanged subscriptions: over any sequence of
    operations from a state where client and D-Bus connection are paired,
    subscriptions minus unsubscriptions of an id is the change in whether
    it is the held subscription. *)
Theorem subscription_accounting os s x :
  watch_pairing s ->
  (subscribed_ind x s + subscription_balance x (log (run os s)))%Z =
  subscribed_ind x (final (run os s)).
Proof. exact (run_subscriptions os s x). Qed.

Lemma subscription_accounting_witness :
  (subscribed_ind 100 s_new_true +
   subscription_balance 100
     (log (run [Op_set_dbus_client_watch 7 (Some "client.X"%string); Op_name_owner_changed ""%string]
               s_new_true)))%Z =
  subscribed_ind 100
    (final (run [Op_set_dbus_client_watch 7 (Some "client.X"%string); Op_name_owner_changed ""%string]
                s_new_true)).
Proof. apply subscription_accounting. reflexivity. Defined.

(** X7: a confirmation cancellable is held only while a client is armed and
    its confirmation issued; this holds after creation and is kept by every
    operation, so a new GetNameOwner call never overwrites a live
    cancellable. *)
Theorem cancellable_discipline :
  (forall b w, cancellable_ok (mkSys (nm_keep_alive_new b) w) = true) /\
  (forall os s, cancellable_ok s = true -> cancellable_ok (final (run os s)) = true) /\
  (forall s, cancellable_ok s = true -> 0 < name_owner_calls (log (_is_alive s)) ->
             dbus_client_confirm_cancellable (priv s) = None).
Proof.
  split; [intros; reflexivity|]. split; [exact run_cancellable | exact call_needs_free_cancellable].
Qed.

Lemma cancellable_discipline_witness :
  dbus_client_confirm_cancellable
    (priv (final (register_dbus_client_watch 7 (Some "client.X"%string)
                    (final (step Op_sink s_new_true))))) = None.
Proof.
  apply (proj2 (proj2 cancellable_discipline)); vm_compute; [reflexivity | lia].
Defined.

(** X8: [dispose] fires no notification, disconnects the flags-changed
    handler and clears the watched connection, tears the client watch down
    (unsubscribing and cancelling) and leaves floating, forced and the
    cached alive flag as they were. *)
Theorem dispose_releases_resources s :
  notifications (log (dispose s)) = [] /\
  (forall c, (watched_ind c s + handler_balance c (log (dispose s)))%Z = 0%Z) /\
  (watch_pairing s -> forall x,
     (subscribed_ind x s + subscription_balance x (log (dispose s)))%Z = 0%Z) /\
  connection (priv (final (dispose s))) = None /\
  dbus_client (priv (final (dispose s))) = None /\
  (cancellable_ok s = true -> dbus_client_confirm_cancellable (priv (final (dispose s))) = None) /\
  (watch_pairing s -> dbus_connection (priv (final (dispose s))) = None) /\
  floating (priv (final (dispose s))) = floating (priv s) /\
  forced (priv (final (dispose s))) = forced (priv s) /\
  alive (priv (final (dispose s))) = alive (priv s).
Proof. exact (dispose_props s). Qed.

Lemma dispose_releases_resources_witness :
  dbus_connection (priv (final (dispose
    (final (run [Op_sink; Op_set_dbus_client_watch 7 (Some "client.X"%string)] s_new_true))))) = None.
Proof.
  apply (dispose_releases_resources
           (final (run [Op_sink; Op_set_dbus_client_watch 7 (Some "client.X"%string)] s_new_true))).
  reflexivity.
Defined.

Lemma floating_never_restored_witness :
  Op_set_forced true <> Op_sink /\
  floating (priv (final (step (Op_set_forced true) s_new_true))) = true.
Proof.
  split; [discriminate|].
  rewrite (proj1 floating_never_restored (Op_set_forced true) s_new_true
             ltac:(discriminate)).
  reflexivity.
Defined.

Lemma disable_watch_clears_client_witness :
  dbus_client (priv (final (nm_keep_alive_set_dbus_client_watch 7 None
    (final (run [Op_set_dbus_client_watch 7 (Some "client.X"%string)] s_new_true))))) = None.
Proof. apply (disable_watch_clears_client 7). reflexivity. Defined.

End KeepAlive.
